(** * imghdr.what: a shallow embedding and its verified properties

    The repository's [imghdr.py] holds one function, [what(file, h=None)].
    It obtains at most 32 bytes (from [h], from a bytes-like [file], or by
    opening [str(file)]), asks Pillow for the format when Pillow could be
    imported, and otherwise compares the leading bytes with five fixed
    signatures.

    Python effects are modelled explicitly: a computation yields an outcome
    (a value or a raised exception) together with the file-system events it
    performed.  What Python and Pillow supply (opening a path, decoding a
    buffer, [str.lower]) is gathered in a [Runtime] record. *)

From Stdlib Require Import String Ascii Bool Arith Lia List Permutation.
From Stdlib.Strings Require Import Byte.
Import ListNotations.

Open Scope string_scope.
Open Scope list_scope.

(* ------------------------------------------------------------------ *)
(** ** Values *)

Definition bytes := list byte.

(** Exceptions derived from [Exception], the class both [except] clauses
    name: the ones a path open, a read or a decode are known to raise,
    and a catch-all for any other class. *)
Inductive PyExc : Type :=
| FileNotFoundError
| PermissionError
| IsADirectoryError
| ValueError
| OSError
| UnidentifiedImageError
| OtherException (class_name : string).

(** The [file] argument, typed [str | bytes | None] in the source; the
    [isinstance] test also admits a [bytearray]. *)
Inductive PyFile : Type :=
| FileStr (path : string)
| FileBytes (b : bytes)
| FileByteArray (b : bytes)
| FileNone.

(** [str(None)]; [str] of a string is the string itself. *)
Definition str_None : string := "None".

(* ------------------------------------------------------------------ *)
(** ** Effects: outcomes and file-system events *)

Inductive io_event : Type :=
| EvOpen (path : string)
| EvRead (n : nat)
| EvClose.

Inductive outcome (A : Type) : Type :=
| Returns (a : A)
| Raises (e : PyExc).
Arguments Returns {A} a.
Arguments Raises {A} e.

Definition Py (A : Type) : Type := outcome A * list io_event.

Definition ret {A} (a : A) : Py A := (Returns a, []).

Definition raise {A} (e : PyExc) : Py A := (Raises e, []).

Definition emit (ev : io_event) : Py unit := (Returns tt, [ev]).

Definition bind {A B} (m : Py A) (k : A -> Py B) : Py B :=
  match m with
  | (Returns a, t) => let (r, t') := k a in (r, t ++ t')
  | (Raises e, t) => (Raises e, t)
  end.

(** [try: m  except Exception: handler] *)
Definition try_except {A} (m : Py A) (handler : PyExc -> Py A) : Py A :=
  match m with
  | (Returns a, t) => (Returns a, t)
  | (Raises e, t) => let (r, t') := handler e in (r, t ++ t')
  end.

(** [m] followed by [cleanup] on every exit path, as [with] does. *)
Definition finally {A} (m : Py A) (cleanup : Py unit) : Py A :=
  match m with
  | (r, t) => (r, t ++ snd cleanup)
  end.

Declare Scope py_scope.
Delimit Scope py_scope with py.
Notation "x <- m ;; k" := (bind m (fun x => k))
  (at level 61, m at next level, right associativity) : py_scope.
Notation "m ;;; k" := (bind m (fun _ => k))
  (at level 61, right associativity) : py_scope.
Open Scope py_scope.

(* ------------------------------------------------------------------ *)
(** ** The runtime the function runs in *)

(** What [f.read(n)] does on an opened file: raise, or yield up to [n]
    bytes of its content. *)
Inductive read_outcome : Type :=
| ReadFails (e : PyExc)
| ReadYields (content : bytes).

(** What [open(path, "rb")] does. *)
Inductive open_outcome : Type :=
| OpenFails (e : PyExc)
| OpenYields (f : read_outcome).

(** What [Image.open(BytesIO(data))] followed by [img.format] does:
    raise, or yield the format attribute ([None] or a string). *)
Inductive decode_outcome : Type :=
| DecodeFails (e : PyExc)
| DecodeYields (fmt : option string).

Record Runtime : Type := {
  (** the file system, as seen through [open] *)
  os_open : string -> open_outcome;
  (** [Image] (with [BytesIO]) after the guarded import: [None] when the
      import failed *)
  Image : option (bytes -> decode_outcome);
  (** Python's [str.lower] *)
  str_lower : string -> string
}.

Definition file_read (f : read_outcome) (n : nat) : Py bytes :=
  emit (EvRead n) ;;;
  match f with
  | ReadFails e => raise e
  | ReadYields content => ret (firstn n content)
  end.

(** [with open(path, "rb") as f: body f] *)
Definition with_open {A} (rt : Runtime) (path : string)
    (body : read_outcome -> Py A) : Py A :=
  emit (EvOpen path) ;;;
  match os_open rt path with
  | OpenFails e => raise e
  | OpenYields f => finally (body f) (emit EvClose)
  end.

(* ------------------------------------------------------------------ *)
(** ** Byte-string operations used by the header checks *)

(** [data.startswith(prefix)] *)
Fixpoint startswith (data prefix : bytes) {struct prefix} : bool :=
  match prefix, data with
  | [], _ => true
  | _ :: _, [] => false
  | p :: ps, d :: ds => Byte.eqb d p && startswith ds ps
  end.

(** [a == b] on byte strings *)
Fixpoint bytes_eqb (a b : bytes) : bool :=
  match a, b with
  | [], [] => true
  | x :: a', y :: b' => Byte.eqb x y && bytes_eqb a' b'
  | _, _ => false
  end.

(** [x in (c1, c2, ...)] *)
Definition bytes_in (x : bytes) (candidates : list bytes) : bool :=
  existsb (bytes_eqb x) candidates.

(** [not data] *)
Definition is_empty (data : bytes) : bool :=
  match data with
  | [] => true
  | _ :: _ => false
  end.

(** Truthiness of [img.format] in [if fmt:]. *)
Definition fmt_truthy (fmt : option string) : option string :=
  match fmt with
  | None => None
  | Some EmptyString => None
  | Some s => Some s
  end.

Definition JPEG_SIG : bytes := [xff; xd8].
Definition PNG_SIG : bytes := [x89; x50; x4e; x47; x0d; x0a; x1a; x0a].
Definition GIF87a : bytes := [x47; x49; x46; x38; x37; x61].
Definition GIF89a : bytes := [x47; x49; x46; x38; x39; x61].
Definition BM : bytes := [x42; x4d].
Definition II : bytes := [x49; x49].
Definition MM : bytes := [x4d; x4d].

(** The five tests, one per [if] of the source. *)
Definition is_jpeg (data : bytes) : bool := startswith data JPEG_SIG.
Definition is_png (data : bytes) : bool := startswith data PNG_SIG.
Definition is_gif (data : bytes) : bool :=
  bytes_in (firstn 6 data) [GIF87a; GIF89a].
Definition is_bmp (data : bytes) : bool := startswith data BM.
Definition is_tiff (data : bytes) : bool :=
  startswith data II || startswith data MM.

(* ------------------------------------------------------------------ *)
(** ** The function *)

(** Either the function has executed a [return], or it goes on with a
    value. *)
Inductive flow (A : Type) : Type :=
| Return (v : option string)
| Continue (a : A).
Arguments Return {A} v.
Arguments Continue {A} a.

(** Lines 36-48: [data = h], and when [h is None] the guarded read. *)
Definition read_header (rt : Runtime) (file : PyFile) (h : option bytes)
  : Py (flow bytes) :=
  match h with
  | Some data => ret (Continue data)
  | None =>
      try_except
        (match file with
         | FileBytes b | FileByteArray b => ret (Continue (firstn 32 b))
         | FileStr p =>
             data <- with_open rt p (fun f => file_read f 32) ;;
             ret (Continue data)
         | FileNone =>
             data <- with_open rt str_None (fun f => file_read f 32) ;;
             ret (Continue data)
         end)
        (fun _ => ret (Return None))
  end.

(** Lines 51-59: Pillow, when it was imported. *)
Definition try_pillow (rt : Runtime) (data : bytes) : Py (flow unit) :=
  match Image rt with
  | Some Image_open =>
      try_except
        (match Image_open data with
         | DecodeFails e => raise e
         | DecodeYields fmt =>
             match fmt_truthy fmt with
             | Some s => ret (Return (Some (str_lower rt s)))
             | None => ret (Continue tt)
             end
         end)
        (fun _ => ret (Continue tt))
  | None => ret (Continue tt)
  end.

(** Lines 62-77: the header checks. *)
Definition header_checks (data : bytes) : option string :=
  if is_empty data then None
  else if is_jpeg data then Some "jpeg"
  else if is_png data then Some "png"
  else if is_gif data then Some "gif"
  else if is_bmp data then Some "bmp"
  else if is_tiff data then Some "tiff"
  else None.

Definition what (rt : Runtime) (file : PyFile) (h : option bytes)
  : Py (option string) :=
  r <- read_header rt file h ;;
  match r with
  | Return v => ret v
  | Continue data =>
      r' <- try_pillow rt data ;;
      match r' with
      | Return v => ret v
      | Continue _ => ret (header_checks data)
      end
  end.

(* ------------------------------------------------------------------ *)
(** ** Vocabulary of the statements *)

(** The buffer a call passes directly, if it passes one: the header when
    it is given, else a bytes-like [file]. *)
Definition passed_buffer (file : PyFile) (h : option bytes) : option bytes :=
  match h with
  | Some data => Some data
  | None =>
      match file with
      | FileBytes b | FileByteArray b => Some b
      | FileStr _ | FileNone => None
      end
  end.

(** The path a call opens when it passes no header and no buffer. *)
Definition opened_path (file : PyFile) : option string :=
  match file with
  | FileStr p => Some p
  | FileNone => Some str_None
  | FileBytes _ | FileByteArray _ => None
  end.

(** The format Pillow reports for [data], when Pillow is there, decodes
    the buffer and reports a non-empty format. *)
Definition pillow_format (rt : Runtime) (data : bytes) : option string :=
  match Image rt with
  | Some Image_open =>
      match Image_open data with
      | DecodeFails _ => None
      | DecodeYields fmt => fmt_truthy fmt
      end
  | None => None
  end.

(** The events of opening [path] and reading from it. *)
Definition open_read_events (path : string) : list io_event :=
  [EvOpen path; EvRead 32; EvClose].

(** A signature rule: the test of one [if] and the label it returns. *)
Definition rule : Type := (bytes -> bool) * string.

(** The five rules in the order of the source. *)
Definition signature_rules : list rule :=
  [(is_jpeg, "jpeg"); (is_png, "png"); (is_gif, "gif"); (is_bmp, "bmp");
   (is_tiff, "tiff")].

(** The label of the first rule of [rules] that [data] satisfies. *)
Fixpoint first_match (rules : list rule) (data : bytes) : option string :=
  match rules with
  | [] => None
  | r :: rest => if fst r data then Some (snd r) else first_match rest data
  end.

(** The header checks with the rules tried in the order of [rules]. *)
Definition checks_in_order (rules : list rule) (data : bytes)
  : option string :=
  if is_empty data then None else first_match rules data.

(* ------------------------------------------------------------------ *)
(** ** Runtimes used in the examples *)

(** Lower-casing of the ASCII letters, which is what [str.lower] does on
    Pillow's format names. *)
Definition ascii_lower (c : ascii) : ascii :=
  let n := nat_of_ascii c in
  if Nat.leb 65 n && Nat.leb n 90 then ascii_of_nat (n + 32) else c.

Fixpoint lower (s : string) : string :=
  match s with
  | EmptyString => EmptyString
  | String c s' => String (ascii_lower c) (lower s')
  end.

(** No file can be opened and Pillow is not installed. *)
Definition bare_runtime : Runtime :=
  {| os_open := fun _ => OpenFails FileNotFoundError;
     Image := None;
     str_lower := lower |}.

(** [rt] with Pillow installed, decoding as [dec]. *)
Definition with_decoder (rt : Runtime) (dec : bytes -> decode_outcome)
  : Runtime :=
  {| os_open := os_open rt; Image := Some dec; str_lower := str_lower rt |}.

(** [rt] with one more file. *)
Definition with_file (rt : Runtime) (path : string) (f : read_outcome)
  : Runtime :=
  {| os_open := fun p => if String.eqb p path then OpenYields f
                         else os_open rt p;
     Image := Image rt;
     str_lower := str_lower rt |}.

(** A decoder that reports a format whatever it is given. *)
Definition eager_decoder (_ : bytes) : decode_outcome :=
  DecodeYields (Some "PNG").

(** A decoder that rejects every buffer, as Pillow does for data it
    cannot identify. *)
Definition failing_decoder (e : PyExc) (_ : bytes) : decode_outcome :=
  DecodeFails e.

(** A decoder that opens every buffer and reports no format. *)
Definition mute_decoder (_ : bytes) : decode_outcome := DecodeYields None.

(* ------------------------------------------------------------------ *)
(** ** The guarded import at module level *)

(** What an [import] statement does: raise, or bind the name. *)
Inductive import_outcome (A : Type) : Type :=
| ImportFails (e : PyExc)
| Imported (a : A).
Arguments ImportFails {A} e.
Arguments Imported {A} a.

Section GuardedImport.

(** The in-memory stream [BytesIO(data)] builds and [Image.open] reads. *)
Variable Stream : Type.

(** The two module globals the import block leaves behind; [None] is the
    value the [except] branch assigns. *)
Record Globals : Type := {
  g_Image : option (Stream -> decode_outcome);
  g_BytesIO : option (bytes -> Stream)
}.

(** Lines 18-23: [from PIL import Image], then [from io import BytesIO],
    and on any exception both names are set to [None].  The second
    import is not attempted when the first one raises. *)
Definition import_block
    (pil : import_outcome (Stream -> decode_outcome))
    (io : import_outcome (bytes -> Stream)) : Globals :=
  match pil with
  | ImportFails _ => {| g_Image := None; g_BytesIO := None |}
  | Imported image =>
      match io with
      | ImportFails _ => {| g_Image := None; g_BytesIO := None |}
      | Imported bytes_io =>
          {| g_Image := Some image; g_BytesIO := Some bytes_io |}
      end
  end.

(** Line 51 and line 53: the test [Image and BytesIO], and under it the
    call [Image.open(BytesIO(data))]. *)
Definition decoder_of (g : Globals) : option (bytes -> decode_outcome) :=
  match g_Image g, g_BytesIO g with
  | Some image, Some bytes_io => Some (fun data => image (bytes_io data))
  | _, _ => None
  end.

(** The runtime [what] finds once the module is loaded. *)
Definition runtime_of (fs : string -> open_outcome)
    (lower_fn : string -> string) (g : Globals) : Runtime :=
  {| os_open := fs; Image := decoder_of g; str_lower := lower_fn |}.

End GuardedImport.

Arguments g_Image {Stream} g.
Arguments g_BytesIO {Stream} g.
Arguments import_block {Stream} pil io.
Arguments decoder_of {Stream} g.
Arguments runtime_of {Stream} fs lower_fn g.

(* ------------------------------------------------------------------ *)
(** ** The scenarios of the specification *)

(** The scenarios listed with the testable properties. *)
Example scenario_jpeg :
  what bare_runtime FileNone (Some [xff; xd8; xff; xe0; x00; x10])
  = (Returns (Some "jpeg"), []).
Proof. reflexivity. Qed.

Example scenario_png :
  what bare_runtime FileNone (Some (PNG_SIG ++ [x00; x00; x00; x0d]))
  = (Returns (Some "png"), []).
Proof. reflexivity. Qed.

Example scenario_gif :
  what bare_runtime FileNone (Some (GIF89a ++ [x01; x00]))
  = (Returns (Some "gif"), []).
Proof. reflexivity. Qed.

Example scenario_empty_header :
  what bare_runtime FileNone (Some []) = (Returns None, []).
Proof. reflexivity. Qed.

Example scenario_missing_path :
  what bare_runtime (FileStr "/nonexistent/path") None
  = (Returns None, [EvOpen "/nonexistent/path"]).
Proof. reflexivity. Qed.

Example scenario_not_an_image :
  what bare_runtime FileNone
       (Some (list_byte_of_string "not an image"))
  = (Returns None, []).
Proof. reflexivity. Qed.

Example scenario_file_on_disk :
  what (with_file bare_runtime "a.bmp" (ReadYields (BM ++ repeat x00 40)))
       (FileStr "a.bmp") None
  = (Returns (Some "bmp"), [EvOpen "a.bmp"; EvRead 32; EvClose]).
Proof. reflexivity. Qed.

Example scenario_pillow_first :
  what (with_decoder bare_runtime (fun _ => DecodeYields (Some "WEBP")))
       (FileBytes (JPEG_SIG ++ [x00])) None
  = (Returns (Some "webp"), []).
Proof. reflexivity. Qed.

(* ------------------------------------------------------------------ *)
(** ** Byte-string lemmas *)

Lemma bytes_eqb_eq (a b : bytes) : bytes_eqb a b = true <-> a = b.
Proof.
  revert b; induction a as [|x a IH]; intros [|y b]; simpl;
    try (split; discriminate); try tauto.
  rewrite andb_true_iff, IH. split.
  - intros [E ->]. apply Byte.byte_dec_bl in E. now subst.
  - intros E. injection E as -> ->. split; [apply Byte.byte_dec_lb|]; reflexivity.
Qed.

Lemma startswith_firstn (data prefix : bytes) :
  startswith data prefix = true <-> firstn (length prefix) data = prefix.
Proof.
  revert data; induction prefix as [|p ps IH]; intros [|d ds]; simpl;
    try (split; [reflexivity | reflexivity]); try (split; discriminate).
  rewrite andb_true_iff, IH. split.
  - intros [E ->]. apply Byte.byte_dec_bl in E. now subst.
  - intros E. injection E as -> E. rewrite E.
    split; [apply Byte.byte_dec_lb|]; reflexivity.
Qed.

Lemma startswith_truncated (prefix data : bytes) (n : nat) :
  length prefix <= n -> startswith (firstn n data) prefix = startswith data prefix.
Proof.
  revert data n; induction prefix as [|p ps IH]; intros data n Hn.
  - now destruct (firstn n data), data.
  - destruct n as [|n]; simpl in Hn; [lia|].
    destruct data as [|d ds]; simpl; [reflexivity|].
    rewrite IH by lia. reflexivity.
Qed.

Lemma is_empty_truncated (data : bytes) (n : nat) :
  1 <= n -> is_empty (firstn n data) = is_empty data.
Proof.
  intros Hn. destruct n; [lia|]. now destruct data.
Qed.

Lemma is_gif_truncated (data : bytes) (n : nat) :
  6 <= n -> is_gif (firstn n data) = is_gif data.
Proof.
  intros Hn. unfold is_gif. rewrite firstn_firstn.
  now replace (Nat.min 6 n) with 6 by lia.
Qed.

(** The header checks read nothing beyond the eighth byte. *)
Lemma header_checks_truncated (data : bytes) (n : nat) :
  8 <= n -> header_checks (firstn n data) = header_checks data.
Proof.
  intros Hn. unfold header_checks, is_jpeg, is_png, is_bmp, is_tiff.
  rewrite is_empty_truncated, is_gif_truncated by lia.
  rewrite !startswith_truncated by (simpl; lia).
  reflexivity.
Qed.

Lemma header_checks_agree (b1 b2 : bytes) (n : nat) :
  8 <= n -> firstn n b1 = firstn n b2 -> header_checks b1 = header_checks b2.
Proof.
  intros Hn E.
  rewrite <- (header_checks_truncated b1 n Hn), E.
  now apply header_checks_truncated.
Qed.

Lemma split_prefix (n : nat) (b prefix : bytes) :
  firstn n b = prefix -> b = prefix ++ skipn n b.
Proof. intros <-. symmetry. apply firstn_skipn. Qed.

(** Rewrites the buffer as its known prefix followed by the rest, then
    lets the checks compute. *)
Ltac by_prefix E := rewrite (split_prefix _ _ _ E); reflexivity.

(* ------------------------------------------------------------------ *)
(** ** How a call unfolds *)

Section Unfolding.

Variable rt : Runtime.

Lemma try_pillow_spec (data : bytes) :
  try_pillow rt data
  = ret (match pillow_format rt data with
         | Some s => Return (Some (str_lower rt s))
         | None => Continue tt
         end).
Proof.
  unfold try_pillow, pillow_format.
  destruct (Image rt) as [dec|]; [|reflexivity].
  destruct (dec data) as [e|fmt]; [reflexivity|].
  now destruct (fmt_truthy fmt).
Qed.

(** Once the first stage has produced [data], the answer is Pillow's
    format lower-cased, or else the verdict of the header checks. *)
Lemma what_after_read (file : PyFile) (h : option bytes)
    (data : bytes) (t : list io_event) :
  read_header rt file h = (Returns (Continue data), t) ->
  what rt file h
  = (Returns (match pillow_format rt data with
              | Some s => Some (str_lower rt s)
              | None => header_checks data
              end), t).
Proof.
  intros E. unfold what. rewrite E. simpl.
  rewrite try_pillow_spec.
  destruct (pillow_format rt data); simpl; now rewrite !app_nil_r.
Qed.

(** An early [return] of the first stage is the answer of the call. *)
Lemma what_early_return (file : PyFile) (h : option bytes)
    (v : option string) (t : list io_event) :
  read_header rt file h = (Returns (Return v), t) ->
  what rt file h = (Returns v, t).
Proof.
  intros E. unfold what. rewrite E. simpl. now rewrite app_nil_r.
Qed.

(** The first stage on a path. *)
Lemma read_path (path : string) :
  with_open rt path (fun f => file_read f 32)
  = match os_open rt path with
    | OpenFails e => (Raises e, [EvOpen path])
    | OpenYields (ReadFails e) => (Raises e, open_read_events path)
    | OpenYields (ReadYields content) =>
        (Returns (firstn 32 content), open_read_events path)
    end.
Proof.
  unfold with_open. destruct (os_open rt path) as [e|[e|content]]; reflexivity.
Qed.

Lemma read_header_str (path : string) :
  read_header rt (FileStr path) None
  = match os_open rt path with
    | OpenFails e => (Returns (Return None), [EvOpen path])
    | OpenYields (ReadFails e) => (Returns (Return None), open_read_events path)
    | OpenYields (ReadYields content) =>
        (Returns (Continue (firstn 32 content)), open_read_events path)
    end.
Proof.
  unfold read_header. rewrite read_path.
  destruct (os_open rt path) as [e|[e|content]]; reflexivity.
Qed.

Lemma read_header_buffer (file : PyFile) (h : option bytes)
    (b : bytes) :
  passed_buffer file h = Some b ->
  read_header rt file h
  = ret (Continue (match h with Some _ => b | None => firstn 32 b end)).
Proof.
  destruct h as [data|]; simpl.
  - now intros [= ->].
  - destruct file; intros [= ->]; reflexivity.
Qed.

(** Without Pillow, a call that passes a buffer answers with the header
    checks on that buffer and touches no file. *)
Lemma what_buffer_without_pillow (file : PyFile)
    (h : option bytes) (b : bytes) :
  Image rt = None ->
  passed_buffer file h = Some b ->
  what rt file h = (Returns (header_checks b), []).
Proof.
  intros HI Hb.
  rewrite (what_after_read file h _ [] (read_header_buffer file h b Hb)).
  unfold pillow_format. rewrite HI.
  destruct h; [reflexivity|].
  now rewrite header_checks_truncated by lia.
Qed.

End Unfolding.

(* ------------------------------------------------------------------ *)
(** ** Signatures recognised without Pillow *)

(** C1. With Pillow unavailable, a call that passes a byte buffer (as a
    bytes-like [file] or as the header) whose first two bytes are
    [FF D8] returns "jpeg", and one whose first eight bytes are the PNG
    signature returns "png"; no file is touched. *)
Theorem what_jpeg_png (rt : Runtime) (file : PyFile) (h : option bytes)
    (b : bytes) :
  Image rt = None ->
  passed_buffer file h = Some b ->
  (firstn 2 b = [xff; xd8] ->
   what rt file h = (Returns (Some "jpeg"), [])) /\
  (firstn 8 b = [x89; x50; x4e; x47; x0d; x0a; x1a; x0a] ->
   what rt file h = (Returns (Some "png"), [])).
Proof.
  intros HI Hb. rewrite (what_buffer_without_pillow rt file h b HI Hb).
  split; intros E; by_prefix E.
Qed.

Lemma what_jpeg_png_witness :
  what bare_runtime (FileBytes [xff; xd8; xff; xdb]) None
  = (Returns (Some "jpeg"), []) /\
  what bare_runtime (FileStr "/no/such/file")
       (Some [x89; x50; x4e; x47; x0d; x0a; x1a; x0a; x00])
  = (Returns (Some "png"), []).
Proof.
  split.
  - apply (what_jpeg_png bare_runtime (FileBytes [xff; xd8; xff; xdb]) None
             [xff; xd8; xff; xdb]); reflexivity.
  - apply (what_jpeg_png bare_runtime (FileStr "/no/such/file")
             (Some [x89; x50; x4e; x47; x0d; x0a; x1a; x0a; x00])
             [x89; x50; x4e; x47; x0d; x0a; x1a; x0a; x00]); reflexivity.
Defined.

(** C2. With Pillow unavailable, a call that passes a byte buffer returns
    "gif" when the first six bytes are "GIF87a" or "GIF89a", "bmp" when
    the buffer starts with "BM", and "tiff" when it starts with "II" or
    "MM".  The three conditions exclude one another and the two earlier
    signatures, so each holds without the "otherwise" of the sentence. *)
Theorem what_gif_bmp_tiff (rt : Runtime) (file : PyFile) (h : option bytes)
    (b : bytes) :
  Image rt = None ->
  passed_buffer file h = Some b ->
  (firstn 6 b = list_byte_of_string "GIF87a" \/
   firstn 6 b = list_byte_of_string "GIF89a" ->
   what rt file h = (Returns (Some "gif"), [])) /\
  (firstn 2 b = list_byte_of_string "BM" ->
   what rt file h = (Returns (Some "bmp"), [])) /\
  (firstn 2 b = list_byte_of_string "II" \/
   firstn 2 b = list_byte_of_string "MM" ->
   what rt file h = (Returns (Some "tiff"), [])).
Proof.
  intros HI Hb. rewrite (what_buffer_without_pillow rt file h b HI Hb).
  split; [|split].
  - intros [E|E]; by_prefix E.
  - intros E; by_prefix E.
  - intros [E|E]; by_prefix E.
Qed.

Lemma what_gif_bmp_tiff_witness :
  what bare_runtime (FileByteArray (list_byte_of_string "GIF87a..")) None
  = (Returns (Some "gif"), []) /\
  what bare_runtime FileNone (Some (list_byte_of_string "BM6"))
  = (Returns (Some "bmp"), []) /\
  what bare_runtime (FileBytes (list_byte_of_string "MM.*")) None
  = (Returns (Some "tiff"), []).
Proof.
  split; [|split].
  - apply (what_gif_bmp_tiff bare_runtime
             (FileByteArray (list_byte_of_string "GIF87a..")) None
             (list_byte_of_string "GIF87a..")); try reflexivity.
    left; reflexivity.
  - apply (what_gif_bmp_tiff bare_runtime FileNone
             (Some (list_byte_of_string "BM6"))
             (list_byte_of_string "BM6")); reflexivity.
  - apply (what_gif_bmp_tiff bare_runtime
             (FileBytes (list_byte_of_string "MM.*")) None
             (list_byte_of_string "MM.*")); try reflexivity.
    right; reflexivity.
Defined.

(** The spelled-out signatures are the ones of the model. *)
Example signatures_spelled :
  list_byte_of_string "GIF87a" = GIF87a /\
  list_byte_of_string "GIF89a" = GIF89a /\
  list_byte_of_string "BM" = BM /\
  list_byte_of_string "II" = II /\
  list_byte_of_string "MM" = MM /\
  skipn 1 PNG_SIG = list_byte_of_string "PNG" ++ [x0d; x0a; x1a; x0a].
Proof. repeat split. Qed.

(* ------------------------------------------------------------------ *)
(** ** Only the first 32 bytes matter *)

(** C7. With Pillow unavailable, two calls that pass byte buffers (each
    as a bytes-like [file] or as the header) agreeing on their first 32
    bytes return the same result; and two files whose contents agree on
    their first 32 bytes are told apart by no call on their path. *)
Theorem first_32_bytes_decide (rt : Runtime) :
  Image rt = None ->
  (forall file1 h1 b1 file2 h2 b2,
      passed_buffer file1 h1 = Some b1 ->
      passed_buffer file2 h2 = Some b2 ->
      firstn 32 b1 = firstn 32 b2 ->
      what rt file1 h1 = what rt file2 h2) /\
  (forall path c1 c2,
      firstn 32 c1 = firstn 32 c2 ->
      what (with_file rt path (ReadYields c1)) (FileStr path) None
      = what (with_file rt path (ReadYields c2)) (FileStr path) None).
Proof.
  intros HI. split.
  - intros file1 h1 b1 file2 h2 b2 H1 H2 E.
    rewrite (what_buffer_without_pillow rt file1 h1 b1 HI H1).
    rewrite (what_buffer_without_pillow rt file2 h2 b2 HI H2).
    now rewrite (header_checks_agree b1 b2 32) by (lia || assumption).
  - intros path c1 c2 E.
    assert (R : forall c,
      read_header (with_file rt path (ReadYields c)) (FileStr path) None
      = (Returns (Continue (firstn 32 c)), open_read_events path)).
    { intros c. rewrite read_header_str. simpl. now rewrite String.eqb_refl. }
    rewrite (what_after_read _ _ _ _ _ (R c1)).
    rewrite (what_after_read _ _ _ _ _ (R c2)).
    unfold pillow_format, with_file. cbn [Image]. rewrite HI, E. reflexivity.
Qed.

Lemma first_32_bytes_decide_witness :
  what bare_runtime (FileBytes (BM ++ repeat x00 30 ++ [x01])) None
  = what bare_runtime FileNone (Some (BM ++ repeat x00 30 ++ [xfe; xfd])).
Proof.
  apply (proj1 (first_32_bytes_decide bare_runtime eq_refl)
           (FileBytes (BM ++ repeat x00 30 ++ [x01])) None
           (BM ++ repeat x00 30 ++ [x01])
           FileNone (Some (BM ++ repeat x00 30 ++ [xfe; xfd]))
           (BM ++ repeat x00 30 ++ [xfe; xfd])); reflexivity.
Defined.

(* ------------------------------------------------------------------ *)
(** ** Failures and the empty buffer *)

Lemma read_header_path (rt : Runtime) (file : PyFile) (path : string) :
  opened_path file = Some path ->
  read_header rt file None = read_header rt (FileStr path) None.
Proof.
  destruct file; simpl; intros [= <-]; reflexivity.
Qed.

Lemma pillow_format_silent (rt : Runtime) (data : bytes) :
  pillow_format rt data = None <->
  Image rt = None \/
  exists dec, Image rt = Some dec /\
    ((exists e, dec data = DecodeFails e) \/
     dec data = DecodeYields None \/ dec data = DecodeYields (Some "")).
Proof.
  unfold pillow_format. destruct (Image rt) as [dec|].
  - split.
    + intros H. right. exists dec. split; [reflexivity|].
      destruct (dec data) as [e|[[|c s]|]]; simpl in H;
        [left; now exists e | auto | discriminate | auto].
    + intros [H|(dec' & [= <-] & [[e H]|[H|H]])];
        [discriminate | | | ]; now rewrite H.
  - split; auto.
Qed.

(** C3. A call on a path whose open or read raises returns [None],
    whatever the decoder.  A call whose buffer is empty (passed as header,
    as a bytes-like [file], or read from an empty file) returns [None]:
    [Image.open] raises [UnidentifiedImageError] on a buffer without
    bytes, which is the case [pillow_format rt [] = None] (it also covers
    Pillow being absent; [pillow_format_silent] spells it out).  In every
    case the outcome is [Returns], so no exception leaves the call. *)
Theorem empty_or_unreadable_is_absent (rt : Runtime) :
  (forall file path,
      opened_path file = Some path ->
      (exists e, os_open rt path = OpenFails e \/
                 os_open rt path = OpenYields (ReadFails e)) ->
      exists t, what rt file None = (Returns None, t)) /\
  (pillow_format rt [] = None ->
   (forall file h,
       passed_buffer file h = Some [] ->
       what rt file h = (Returns None, [])) /\
   (forall file path,
       opened_path file = Some path ->
       os_open rt path = OpenYields (ReadYields []) ->
       what rt file None = (Returns None, open_read_events path))).
Proof.
  split; [|intros HP; split].
  - intros file path Hp [e [E|E]]; eexists; apply what_early_return;
      rewrite (read_header_path rt file path Hp), read_header_str, E;
      reflexivity.
  - intros file h Hb.
    rewrite (what_after_read rt file h _ [] (read_header_buffer rt file h [] Hb)).
    destruct h; simpl; now rewrite HP.
  - intros file path Hp E.
    assert (R : read_header rt file None
                = (Returns (Continue []), open_read_events path)).
    { now rewrite (read_header_path rt file path Hp), read_header_str, E. }
    rewrite (what_after_read rt file None _ _ R). now rewrite HP.
Qed.

Lemma empty_or_unreadable_is_absent_witness :
  (exists t, what (with_decoder bare_runtime eager_decoder)
                  (FileStr "/nonexistent/path") None = (Returns None, t)) /\
  what (with_decoder bare_runtime (failing_decoder UnidentifiedImageError))
       (FileBytes []) None = (Returns None, []) /\
  what (with_file bare_runtime "empty.png" (ReadYields []))
       (FileStr "empty.png") None
  = (Returns None, open_read_events "empty.png").
Proof.
  split; [|split].
  - apply (proj1 (empty_or_unreadable_is_absent
                    (with_decoder bare_runtime eager_decoder))
             (FileStr "/nonexistent/path") "/nonexistent/path" eq_refl).
    exists FileNotFoundError. left. reflexivity.
  - apply (proj1 (proj2 (empty_or_unreadable_is_absent
             (with_decoder bare_runtime
                (failing_decoder UnidentifiedImageError))) eq_refl)
             (FileBytes []) None).
    reflexivity.
  - apply (proj2 (proj2 (empty_or_unreadable_is_absent
             (with_file bare_runtime "empty.png" (ReadYields []))) eq_refl)
             (FileStr "empty.png") "empty.png"); reflexivity.
Defined.

(** The assumption on the decoder is about the empty buffer only, and it
    is needed: the decoder is asked before the emptiness test, so a
    stand-in for Pillow that labelled the empty buffer would be obeyed. *)
Example stand_in_decoder_is_obeyed :
  what (with_decoder bare_runtime eager_decoder) FileNone (Some [])
  = (Returns (Some "png"), []).
Proof. reflexivity. Qed.

(* ------------------------------------------------------------------ *)
(** ** Totality *)

Lemma read_header_returns (rt : Runtime) (file : PyFile) (h : option bytes) :
  exists r t, read_header rt file h = (Returns r, t).
Proof.
  destruct h as [data|].
  - now exists (Continue data), [].
  - destruct (opened_path file) as [path|] eqn:Hp.
    + rewrite (read_header_path rt file path Hp), read_header_str.
      destruct (os_open rt path) as [e|[e|c]]; eauto.
    + destruct file; try discriminate Hp; simpl; eauto.
Qed.

(** C4. For every runtime (Pillow present or not), every [file] and every
    header, the call returns: its outcome is [Returns v] with [v] a label
    or [None], never [Raises]. *)
Theorem what_total (rt : Runtime) (file : PyFile) (h : option bytes) :
  exists (v : option string) (t : list io_event),
    what rt file h = (Returns v, t) /\
    forall e, fst (what rt file h) <> Raises e.
Proof.
  destruct (read_header_returns rt file h) as ([v|data] & t & E).
  - exists v, t. rewrite (what_early_return rt file h v t E).
    split; [reflexivity | discriminate].
  - rewrite (what_after_read rt file h data t E).
    eexists; eexists; split; [reflexivity | discriminate].
Qed.

(* ------------------------------------------------------------------ *)
(** ** A header makes [file] irrelevant *)

(** C5. With a header (the empty one included) the call performs no file
    event, and its result does not depend on [file]. *)
Theorem header_ignores_file (rt : Runtime) (hdr : bytes)
    (file1 file2 : PyFile) :
  snd (what rt file1 (Some hdr)) = [] /\
  what rt file1 (Some hdr) = what rt file2 (Some hdr).
Proof.
  rewrite (what_after_read rt file1 (Some hdr) hdr [] eq_refl).
  rewrite (what_after_read rt file2 (Some hdr) hdr [] eq_refl).
  split; reflexivity.
Qed.

(* ------------------------------------------------------------------ *)
(** ** Pillow comes first *)

(** C6. With Pillow available and the buffer [data] obtained, a decode
    that reports a non-empty format makes the call return that format
    lower-cased, whatever the header checks would say; a decode that
    raises makes the call return the verdict of the header checks (which
    begin with the empty-buffer test), and nothing is raised. *)
Theorem pillow_preferred (rt : Runtime) (dec : bytes -> decode_outcome)
    (file : PyFile) (h : option bytes) (data : bytes) (t : list io_event) :
  Image rt = Some dec ->
  read_header rt file h = (Returns (Continue data), t) ->
  (forall fmt, dec data = DecodeYields (Some fmt) -> fmt <> "" ->
     what rt file h = (Returns (Some (str_lower rt fmt)), t)) /\
  (forall e, dec data = DecodeFails e ->
     what rt file h = (Returns (header_checks data), t)).
Proof.
  intros HI HR. rewrite (what_after_read rt file h data t HR).
  unfold pillow_format. rewrite HI. split.
  - intros fmt -> Hne. destruct fmt; [contradiction|reflexivity].
  - intros e ->. reflexivity.
Qed.

Lemma pillow_preferred_witness :
  what (with_decoder bare_runtime eager_decoder)
       (FileBytes (list_byte_of_string "GIF89a")) None
  = (Returns (Some "png"), []) /\
  what (with_decoder bare_runtime (failing_decoder UnidentifiedImageError))
       (FileBytes (list_byte_of_string "GIF89a")) None
  = (Returns (Some "gif"), []).
Proof.
  split.
  - apply (proj1 (pillow_preferred
             (with_decoder bare_runtime eager_decoder) eager_decoder
             (FileBytes (list_byte_of_string "GIF89a")) None
             (list_byte_of_string "GIF89a") [] eq_refl eq_refl) "PNG");
      [reflexivity | discriminate].
  - apply (proj2 (pillow_preferred
             (with_decoder bare_runtime
                (failing_decoder UnidentifiedImageError))
             (failing_decoder UnidentifiedImageError)
             (FileBytes (list_byte_of_string "GIF89a")) None
             (list_byte_of_string "GIF89a") [] eq_refl eq_refl)
             UnidentifiedImageError).
    reflexivity.
Defined.

Lemma read_header_decoder (rt : Runtime) (dec : bytes -> decode_outcome)
    (file : PyFile) (h : option bytes) :
  read_header (with_decoder rt dec) file h = read_header rt file h.
Proof. destruct h, file; reflexivity. Qed.

Lemma header_checks_labels (data : bytes) :
  In (header_checks data)
     [None; Some "jpeg"; Some "png"; Some "gif"; Some "bmp"; Some "tiff"].
Proof.
  unfold header_checks.
  destruct (is_empty data), (is_jpeg data), (is_png data), (is_gif data),
    (is_bmp data), (is_tiff data); simpl; tauto.
Qed.

(** C9. When Pillow opens the buffer but its format is [None] or the
    empty string, the call does not return that value: it returns the
    verdict of the header checks, the same as if the decode had raised. *)
Theorem pillow_without_format (rt : Runtime) (dec : bytes -> decode_outcome)
    (file : PyFile) (h : option bytes) (data : bytes) (t : list io_event) :
  Image rt = Some dec ->
  read_header rt file h = (Returns (Continue data), t) ->
  dec data = DecodeYields None \/ dec data = DecodeYields (Some "") ->
  what rt file h = (Returns (header_checks data), t) /\
  (forall e, what rt file h = what (with_decoder rt (failing_decoder e)) file h) /\
  fst (what rt file h) <> Returns (Some "").
Proof.
  intros HI HR HD.
  assert (W : what rt file h = (Returns (header_checks data), t)).
  { rewrite (what_after_read rt file h data t HR).
    unfold pillow_format. rewrite HI. now destruct HD as [-> | ->]. }
  split; [exact W | split].
  - intros e. rewrite W. symmetry.
    apply (what_after_read (with_decoder rt (failing_decoder e))).
    now rewrite read_header_decoder.
  - rewrite W. simpl. intros [= E].
    pose proof (header_checks_labels data) as L. rewrite E in L.
    simpl in L. intuition discriminate.
Qed.

Lemma pillow_without_format_witness :
  what (with_decoder bare_runtime mute_decoder)
       (FileBytes (list_byte_of_string "BM....")) None
  = (Returns (Some "bmp"), []).
Proof.
  apply (proj1 (pillow_without_format
           (with_decoder bare_runtime mute_decoder) mute_decoder
           (FileBytes (list_byte_of_string "BM....")) None
           (list_byte_of_string "BM....") [] eq_refl eq_refl
           (or_introl eq_refl))).
Defined.

(* ------------------------------------------------------------------ *)
(** ** Neither [file] nor header *)

(** C10, as the code has it.  With [file] and the header both [None]
    the call does not return at once: it behaves as on the path "None",
    so its first event is the opening of that path.  Lines 47-48 return
    [None] exactly when that open or the read raises; when both succeed
    the call goes on to classify the bytes read, so its result is [None]
    exactly when the open raises, the read raises, or the bytes read are
    given no label by the later stages. *)
Theorem none_none_opens_None (rt : Runtime) :
  what rt FileNone None = what rt (FileStr "None") None /\
  (exists t, snd (what rt FileNone None) = EvOpen "None" :: t) /\
  (forall v t,
      read_header rt FileNone None = (Returns (Return v), t) <->
      v = None /\
      ((exists e, os_open rt "None" = OpenFails e /\ t = [EvOpen "None"]) \/
       (exists e, os_open rt "None" = OpenYields (ReadFails e) /\
                  t = open_read_events "None"))) /\
  (forall content,
      os_open rt "None" = OpenYields (ReadYields content) ->
      what rt FileNone None
      = (fst (what rt FileNone (Some (firstn 32 content))),
         open_read_events "None")) /\
  (fst (what rt FileNone None) = Returns None <->
   (exists e, os_open rt "None" = OpenFails e) \/
   (exists e, os_open rt "None" = OpenYields (ReadFails e)) \/
   (exists content,
       os_open rt "None" = OpenYields (ReadYields content) /\
       fst (what rt FileNone (Some (firstn 32 content))) = Returns None)).
Proof.
  split; [reflexivity|].
  assert (R := read_header_str rt "None").
  change (read_header rt (FileStr "None") None)
    with (read_header rt FileNone None) in R.
  assert (S : forall content,
      os_open rt "None" = OpenYields (ReadYields content) ->
      what rt FileNone None
      = (fst (what rt FileNone (Some (firstn 32 content))),
         open_read_events "None")).
  { intros content E. rewrite E in R.
    rewrite (what_after_read _ _ _ _ _ R).
    now rewrite (what_after_read rt FileNone (Some (firstn 32 content))
                   (firstn 32 content) [] eq_refl). }
  split; [|split; [|split; [exact S|]]].
  - destruct (read_header_returns rt FileNone None) as ([v|data] & t & E).
    + rewrite (what_early_return _ _ _ _ _ E). simpl.
      rewrite E in R.
      destruct (os_open rt "None") as [e|[e|c]]; inversion R;
        unfold open_read_events; eauto.
    + rewrite (what_after_read _ _ _ _ _ E). simpl.
      rewrite E in R.
      destruct (os_open rt "None") as [e|[e|c]]; inversion R;
        unfold open_read_events; eauto.
  - intros v t. rewrite R.
    destruct (os_open rt "None") as [e|[e|c]]; split.
    + intros [= <- <-]. split; [reflexivity|]. left. now exists e.
    + intros [-> [(e' & _ & ->)|(e' & H & _)]]; [reflexivity|discriminate].
    + intros [= <- <-]. split; [reflexivity|]. right. now exists e.
    + intros [-> [(e' & H & _)|(e' & _ & ->)]]; [discriminate|reflexivity].
    + discriminate.
    + intros [_ [(e' & H & _)|(e' & H & _)]]; discriminate.
  - destruct (os_open rt "None") as [e|[e|c]] eqn:E.
    + rewrite (what_early_return _ _ _ _ _ R). split; [|reflexivity].
      intros _. left. now exists e.
    + rewrite (what_early_return _ _ _ _ _ R). split; [|reflexivity].
      intros _. right. left. now exists e.
    + rewrite (S c eq_refl). cbn [fst]. split.
      * intros W. right. right. exists c. split; [reflexivity | exact W].
      * intros [(e & H)|[(e & H)|(c' & H & W)]]; try discriminate H.
        injection H as <-. exact W.
Qed.

(** C10 as worded fails: a readable file named "None" that carries no
    signature makes the call return [None] although the open and the
    read both succeeded. *)
Lemma none_none_absent_after_read :
  os_open (with_file bare_runtime "None" (ReadYields [x00; x01; x02])) "None"
  = OpenYields (ReadYields [x00; x01; x02]) /\
  what (with_file bare_runtime "None" (ReadYields [x00; x01; x02]))
       FileNone None
  = (Returns None, [EvOpen "None"; EvRead 32; EvClose]) /\
  ~ (forall rt,
        fst (what rt FileNone None) = Returns None ->
        exists e, os_open rt "None" = OpenFails e \/
                  os_open rt "None" = OpenYields (ReadFails e)).
Proof.
  split; [reflexivity | split; [reflexivity|]].
  intros H.
  destruct (H (with_file bare_runtime "None" (ReadYields [x00; x01; x02]))
              eq_refl) as (e & [E|E]); discriminate E.
Qed.

Example none_none_finds_a_file :
  what (with_file bare_runtime "None" (ReadYields (PNG_SIG ++ repeat x00 50)))
       FileNone None
  = (Returns (Some "png"), [EvOpen "None"; EvRead 32; EvClose]).
Proof. reflexivity. Qed.

Example none_none_no_file :
  what bare_runtime FileNone None = (Returns None, [EvOpen "None"]).
Proof. reflexivity. Qed.

Lemma none_none_opens_None_witness :
  what (with_file bare_runtime "None" (ReadYields (BM ++ repeat x00 40)))
       FileNone None
  = (Returns (Some "bmp"), open_read_events "None").
Proof.
  apply (proj1 (proj2 (proj2 (proj2 (none_none_opens_None
           (with_file bare_runtime "None" (ReadYields (BM ++ repeat x00 40)))))))
           (BM ++ repeat x00 40)).
  reflexivity.
Defined.

(* ------------------------------------------------------------------ *)
(** ** The signatures exclude one another *)

Lemma startswith_head (data prefix : bytes) (c : byte) :
  startswith data (c :: prefix) = true -> hd_error data = Some c.
Proof.
  destruct data as [|d ds]; simpl; [discriminate|].
  intros H. apply andb_true_iff in H as [H _].
  apply Byte.byte_dec_bl in H. now subst.
Qed.

Lemma is_gif_head (data : bytes) :
  is_gif data = true -> hd_error data = Some x47.
Proof.
  unfold is_gif, bytes_in. cbn [existsb].
  rewrite orb_false_r, orb_true_iff, !bytes_eqb_eq.
  intros [E|E]; rewrite (split_prefix 6 _ _ E); reflexivity.
Qed.

Lemma is_tiff_head (data : bytes) :
  is_tiff data = true -> hd_error data = Some x49 \/ hd_error data = Some x4d.
Proof.
  unfold is_tiff. rewrite orb_true_iff.
  intros [H|H]; apply startswith_head in H; auto.
Qed.

(** Each rule fixes the first byte, and no two rules allow the same. *)
Lemma rules_exclusive (data : bytes) (r1 r2 : rule) :
  In r1 signature_rules -> In r2 signature_rules ->
  fst r1 data = true -> fst r2 data = true -> r1 = r2.
Proof.
  unfold signature_rules. simpl.
  intros H1 H2 M1 M2.
  repeat match goal with
         | H : _ \/ _ |- _ => destruct H as [H|H]
         | H : False |- _ => destruct H
         | H : (_, _) = _ |- _ => subst
         end; try reflexivity; simpl in M1, M2; exfalso;
  repeat match goal with
         | H : is_jpeg _ = true |- _ => apply startswith_head in H
         | H : is_png _ = true |- _ => apply startswith_head in H
         | H : is_bmp _ = true |- _ => apply startswith_head in H
         | H : is_gif _ = true |- _ => apply is_gif_head in H
         | H : is_tiff _ = true |- _ => apply is_tiff_head in H; destruct H as [H|H]
         end; congruence.
Qed.

(** When at most one rule can match, the order of the rules is
    immaterial. *)
Lemma first_match_permutation (rules rules' : list rule) (data : bytes) :
  Permutation rules rules' ->
  (forall r1 r2, In r1 rules -> In r2 rules ->
                 fst r1 data = true -> fst r2 data = true -> r1 = r2) ->
  first_match rules data = first_match rules' data.
Proof.
  induction 1 as [|x l l' P IH|x y l|l l' l'' P1 IH1 P2 IH2]; intros EX.
  - reflexivity.
  - simpl. rewrite IH; [reflexivity|].
    intros r1 r2 I1 I2. apply EX; now right.
  - simpl. destruct (fst y data) eqn:My, (fst x data) eqn:Mx; try reflexivity.
    now rewrite (EX y x (or_introl eq_refl) (or_intror (or_introl eq_refl)) My Mx).
  - rewrite IH1 by exact EX. apply IH2.
    intros r1 r2 I1 I2.
    apply EX; apply (Permutation_in _ (Permutation_sym P1)); assumption.
Qed.

(** C8. The five signature rules are pairwise disjoint - no byte
    sequence satisfies two of them - and so the header checks give the
    same answer with the rules tried in any order as in the order of the
    source. *)
Theorem signature_order_immaterial :
  (forall data, header_checks data = checks_in_order signature_rules data) /\
  (forall data r1 r2,
      In r1 signature_rules -> In r2 signature_rules ->
      fst r1 data = true -> fst r2 data = true -> r1 = r2) /\
  (forall rules data,
      Permutation signature_rules rules ->
      checks_in_order rules data = header_checks data).
Proof.
  split; [reflexivity | split].
  - exact rules_exclusive.
  - intros rules data P.
    change (header_checks data) with (checks_in_order signature_rules data).
    unfold checks_in_order. destruct (is_empty data); [reflexivity|].
    symmetry. apply first_match_permutation; [exact P|].
    apply rules_exclusive.
Qed.

Lemma signature_order_immaterial_witness :
  checks_in_order (rev signature_rules) (list_byte_of_string "MM.*")
  = header_checks (list_byte_of_string "MM.*").
Proof.
  apply (proj2 (proj2 signature_order_immaterial) (rev signature_rules)).
  apply Permutation_rev.
Defined.

(* ------------------------------------------------------------------ *)
(** ** The file is opened at most once and always closed *)

(** X1. A call touches the file system only when it has neither a header
    nor a bytes-like [file]; then it opens one path once.  When the open
    raises nothing else happens; when it succeeds there is one read, of 32
    bytes, and the file is closed, whether the read raised or not and
    whatever the later stages do. *)
Theorem file_events (rt : Runtime) (file : PyFile) (h : option bytes) :
  match h, opened_path file with
  | None, Some path =>
      match os_open rt path with
      | OpenFails _ => snd (what rt file h) = [EvOpen path]
      | OpenYields _ =>
          snd (what rt file h) = [EvOpen path; EvRead 32; EvClose]
      end
  | _, _ => snd (what rt file h) = []
  end.
Proof.
  destruct h as [hdr|].
  - now rewrite (what_after_read rt file (Some hdr) hdr [] eq_refl).
  - destruct (opened_path file) as [path|] eqn:Hp.
    + pose proof (read_header_str rt path) as R.
      rewrite <- (read_header_path rt file path Hp) in R.
      destruct (os_open rt path) as [e|[e|c]].
      * now rewrite (what_early_return rt file None _ _ R).
      * now rewrite (what_early_return rt file None _ _ R).
      * now rewrite (what_after_read rt file None _ _ R).
    + destruct file as [p|b|b|]; try discriminate Hp.
      * now rewrite (what_after_read rt (FileBytes b) None _ [] eq_refl).
      * now rewrite (what_after_read rt (FileByteArray b) None _ [] eq_refl).
Qed.

(* ------------------------------------------------------------------ *)
(** ** Three ways to hand over the same bytes *)

(** X2. A bytes-like [file] is cut to 32 bytes before anything looks at
    it: the call equals the call with those 32 bytes as header, for
    [bytes] and [bytearray] alike and whatever the decoder.  A path whose
    read succeeds gives the result of passing the file's content as
    bytes. *)
Theorem same_bytes_same_answer (rt : Runtime) (b : bytes) :
  (forall file, what rt (FileBytes b) None = what rt file (Some (firstn 32 b))) /\
  what rt (FileByteArray b) None = what rt (FileBytes b) None /\
  (forall file path,
      opened_path file = Some path ->
      os_open rt path = OpenYields (ReadYields b) ->
      fst (what rt file None) = fst (what rt (FileBytes b) None)).
Proof.
  split; [|split].
  - intros file.
    rewrite (what_after_read rt (FileBytes b) None (firstn 32 b) [] eq_refl).
    now rewrite (what_after_read rt file (Some (firstn 32 b)) _ [] eq_refl).
  - reflexivity.
  - intros file path Hp E.
    assert (R : read_header rt file None
                = (Returns (Continue (firstn 32 b)), open_read_events path)).
    { now rewrite (read_header_path rt file path Hp), read_header_str, E. }
    rewrite (what_after_read rt file None _ _ R).
    now rewrite (what_after_read rt (FileBytes b) None (firstn 32 b) [] eq_refl).
Qed.

Lemma same_bytes_same_answer_witness :
  fst (what (with_file (with_decoder bare_runtime mute_decoder) "logo"
                       (ReadYields (GIF89a ++ repeat x00 40)))
            (FileStr "logo") None)
  = fst (what (with_file (with_decoder bare_runtime mute_decoder) "logo"
                         (ReadYields (GIF89a ++ repeat x00 40)))
              (FileBytes (GIF89a ++ repeat x00 40)) None).
Proof.
  apply (proj2 (proj2 (same_bytes_same_answer
           (with_file (with_decoder bare_runtime mute_decoder) "logo"
                      (ReadYields (GIF89a ++ repeat x00 40)))
           (GIF89a ++ repeat x00 40)))
           (FileStr "logo") "logo"); reflexivity.
Defined.

(* ------------------------------------------------------------------ *)
(** ** Only the opened path matters *)

(** X3. The file system enters a call only through the one path the call
    opens: two runtimes with the same decoder and the same [str.lower]
    that agree on that path give the same answer and the same events; a
    call with a header or a bytes-like [file] is the same on every file
    system. *)
Theorem other_files_irrelevant (rt1 rt2 : Runtime) (file : PyFile)
    (h : option bytes) :
  Image rt1 = Image rt2 ->
  str_lower rt1 = str_lower rt2 ->
  (forall path, h = None -> opened_path file = Some path ->
                os_open rt1 path = os_open rt2 path) ->
  what rt1 file h = what rt2 file h.
Proof.
  intros HI HL HF.
  assert (HP : forall data, pillow_format rt1 data = pillow_format rt2 data).
  { intros data. unfold pillow_format. now rewrite HI. }
  assert (HR : read_header rt1 file h = read_header rt2 file h).
  { destruct h as [hdr|]; [reflexivity|].
    destruct (opened_path file) as [path|] eqn:Hp.
    - rewrite !(read_header_path _ file path Hp), !read_header_str.
      now rewrite (HF path eq_refl eq_refl).
    - destruct file; try discriminate Hp; reflexivity. }
  destruct (read_header_returns rt2 file h) as ([v|data] & t & E).
  - rewrite (what_early_return rt2 file h v t E).
    rewrite <- HR in E. now rewrite (what_early_return rt1 file h v t E).
  - rewrite (what_after_read rt2 file h data t E).
    rewrite <- HR in E. rewrite (what_after_read rt1 file h data t E).
    now rewrite HP, HL.
Qed.

Lemma other_files_irrelevant_witness :
  what (with_file bare_runtime "b.gif" (ReadYields GIF87a))
       (FileStr "a.png") None
  = what bare_runtime (FileStr "a.png") None.
Proof.
  apply (other_files_irrelevant
           (with_file bare_runtime "b.gif" (ReadYields GIF87a))
           bare_runtime (FileStr "a.png") None eq_refl eq_refl).
  intros path _ [= <-]. reflexivity.
Defined.

(* ------------------------------------------------------------------ *)
(** ** Eight bytes are enough, one is too few *)

(** X4. Without Pillow the answer is settled by the first eight bytes of
    the buffer: two calls whose buffers agree on them return the same
    result.  (The read still asks for 32.) *)
Theorem first_8_bytes_decide (rt : Runtime) (file1 file2 : PyFile)
    (h1 h2 : option bytes) (b1 b2 : bytes) :
  Image rt = None ->
  passed_buffer file1 h1 = Some b1 ->
  passed_buffer file2 h2 = Some b2 ->
  firstn 8 b1 = firstn 8 b2 ->
  what rt file1 h1 = what rt file2 h2.
Proof.
  intros HI H1 H2 E.
  rewrite (what_buffer_without_pillow rt file1 h1 b1 HI H1).
  rewrite (what_buffer_without_pillow rt file2 h2 b2 HI H2).
  now rewrite (header_checks_agree b1 b2 8) by (lia || assumption).
Qed.

Lemma first_8_bytes_decide_witness :
  what bare_runtime (FileBytes (PNG_SIG ++ [x00; x01])) None
  = what bare_runtime FileNone (Some (PNG_SIG ++ [xff])).
Proof.
  apply (first_8_bytes_decide bare_runtime
           (FileBytes (PNG_SIG ++ [x00; x01])) FileNone
           None (Some (PNG_SIG ++ [xff]))
           (PNG_SIG ++ [x00; x01]) (PNG_SIG ++ [xff])); reflexivity.
Defined.

(** X5. Without Pillow a buffer of fewer than two bytes is never given a
    label: every signature needs at least two. *)
Theorem short_buffer_is_absent (rt : Runtime) (file : PyFile)
    (h : option bytes) (b : bytes) :
  Image rt = None ->
  passed_buffer file h = Some b ->
  length b < 2 ->
  what rt file h = (Returns None, []).
Proof.
  intros HI Hb Hlen.
  rewrite (what_buffer_without_pillow rt file h b HI Hb).
  destruct b as [|c [|c' b]]; simpl in Hlen; [reflexivity| |lia].
  unfold header_checks, is_jpeg, is_png, is_gif, is_bmp, is_tiff, bytes_in.
  simpl. now rewrite !andb_false_r.
Qed.

Lemma short_buffer_is_absent_witness :
  what bare_runtime (FileBytes [xff]) None = (Returns None, []).
Proof.
  apply (short_buffer_is_absent bare_runtime (FileBytes [xff]) None [xff]);
    [reflexivity | reflexivity | simpl; lia].
Defined.

(* ------------------------------------------------------------------ *)
(** ** A label means its signature, and nothing else does *)

Lemma first_match_hit (rules : list rule) (data : bytes) (r : rule) :
  In r rules -> fst r data = true ->
  exists r', In r' rules /\ fst r' data = true /\
             first_match rules data = Some (snd r').
Proof.
  induction rules as [|x rules IH]; intros HIn M; [destruct HIn|].
  simpl. destruct (fst x data) eqn:Mx.
  - exists x. auto using in_eq.
  - destruct HIn as [->|HIn]; [congruence|].
    destruct (IH HIn M) as (r' & I' & M' & F').
    exists r'. auto using in_cons.
Qed.

Lemma first_match_Some (rules : list rule) (data : bytes) (l : string) :
  first_match rules data = Some l ->
  exists r, In r rules /\ fst r data = true /\ snd r = l.
Proof.
  induction rules as [|x rules IH]; simpl; [discriminate|].
  destruct (fst x data) eqn:Mx.
  - intros [= <-]. exists x. auto.
  - intros F. destruct (IH F) as (r & I & M & L). exists r. auto.
Qed.

Lemma first_match_None (rules : list rule) (data : bytes) :
  first_match rules data = None <->
  forall r, In r rules -> fst r data = false.
Proof.
  induction rules as [|x rules IH]; simpl.
  - split; [intros _ r [] | reflexivity].
  - destruct (fst x data) eqn:Mx.
    + split; [discriminate|]. intros H.
      rewrite (H x (or_introl eq_refl)) in Mx. discriminate.
    + rewrite IH. split.
      * intros H r [<-|I]; auto.
      * intros H r I. apply H. now right.
Qed.

Lemma rules_reject_empty (r : rule) :
  In r signature_rules -> fst r [] = false.
Proof.
  unfold signature_rules. simpl.
  intros H; repeat destruct H as [<-|H]; try reflexivity; destruct H.
Qed.

Lemma labels_distinct (r1 r2 : rule) :
  In r1 signature_rules -> In r2 signature_rules ->
  snd r1 = snd r2 -> r1 = r2.
Proof.
  unfold signature_rules. simpl.
  intros H1 H2.
  repeat destruct H1 as [<-|H1]; try destruct H1;
    repeat destruct H2 as [<-|H2]; try destruct H2;
    simpl; intros E; try reflexivity; discriminate E.
Qed.

Lemma is_empty_nil (data : bytes) : is_empty data = true -> data = [].
Proof. destruct data; [reflexivity | discriminate]. Qed.

(** The header checks answer with a rule's label exactly when the rule's
    test holds. *)
Lemma header_checks_label (data : bytes) (r : rule) :
  In r signature_rules ->
  header_checks data = Some (snd r) <-> fst r data = true.
Proof.
  intros I.
  change (header_checks data) with (checks_in_order signature_rules data).
  unfold checks_in_order. split.
  - destruct (is_empty data); [discriminate|]. intros F.
    destruct (first_match_Some _ _ _ F) as (r' & I' & M' & L').
    now rewrite <- (labels_distinct r' r I' I L').
  - intros M. destruct (is_empty data) eqn:Em.
    + apply is_empty_nil in Em. subst.
      rewrite (rules_reject_empty r I) in M. discriminate.
    + destruct (first_match_hit _ _ _ I M) as (r' & I' & M' & F').
      now rewrite F', (rules_exclusive data r' r I' I M' M).
Qed.

Lemma header_checks_None (data : bytes) :
  header_checks data = None <->
  forall r, In r signature_rules -> fst r data = false.
Proof.
  change (header_checks data) with (checks_in_order signature_rules data).
  unfold checks_in_order. destruct (is_empty data) eqn:Em.
  - apply is_empty_nil in Em. subst. split; [|reflexivity].
    intros _ r I. now apply rules_reject_empty.
  - apply first_match_None.
Qed.

Lemma is_gif_firstn (data : bytes) :
  is_gif data = true <-> firstn 6 data = GIF87a \/ firstn 6 data = GIF89a.
Proof.
  unfold is_gif, bytes_in. cbn [existsb].
  now rewrite orb_false_r, orb_true_iff, !bytes_eqb_eq.
Qed.

Lemma is_tiff_firstn (data : bytes) :
  is_tiff data = true <-> firstn 2 data = II \/ firstn 2 data = MM.
Proof.
  unfold is_tiff. rewrite orb_true_iff.
  now rewrite (startswith_firstn data II), (startswith_firstn data MM).
Qed.

(** X6. Without Pillow each answer says exactly what the buffer starts
    with: "jpeg" is returned if and only if the first two bytes are
    [FF D8], and likewise for "png", "gif", "bmp" and "tiff"; [None] is
    returned if and only if the buffer carries none of the signatures. *)
Theorem label_exact (rt : Runtime) (file : PyFile) (h : option bytes)
    (b : bytes) :
  Image rt = None ->
  passed_buffer file h = Some b ->
  (fst (what rt file h) = Returns (Some "jpeg") <-> firstn 2 b = JPEG_SIG) /\
  (fst (what rt file h) = Returns (Some "png") <-> firstn 8 b = PNG_SIG) /\
  (fst (what rt file h) = Returns (Some "gif") <->
     firstn 6 b = GIF87a \/ firstn 6 b = GIF89a) /\
  (fst (what rt file h) = Returns (Some "bmp") <-> firstn 2 b = BM) /\
  (fst (what rt file h) = Returns (Some "tiff") <->
     firstn 2 b = II \/ firstn 2 b = MM) /\
  (fst (what rt file h) = Returns None <->
     firstn 2 b <> JPEG_SIG /\ firstn 8 b <> PNG_SIG /\
     firstn 6 b <> GIF87a /\ firstn 6 b <> GIF89a /\
     firstn 2 b <> BM /\ firstn 2 b <> II /\ firstn 2 b <> MM).
Proof.
  intros HI Hb. rewrite (what_buffer_without_pillow rt file h b HI Hb).
  cbn [fst].
  assert (INJ : forall x y : option string, Returns x = Returns y <-> x = y).
  { intros x y. split; [now intros [= ->] | now intros ->]. }
  rewrite !INJ.
  pose proof (header_checks_label b (is_jpeg, "jpeg")) as Hj.
  pose proof (header_checks_label b (is_png, "png")) as Hp.
  pose proof (header_checks_label b (is_gif, "gif")) as Hg.
  pose proof (header_checks_label b (is_bmp, "bmp")) as Hm.
  pose proof (header_checks_label b (is_tiff, "tiff")) as Ht.
  unfold signature_rules in *. cbn [fst snd In] in *.
  rewrite Hj, Hp, Hg, Hm, Ht by tauto.
  rewrite is_gif_firstn, is_tiff_firstn.
  unfold is_jpeg, is_png, is_bmp.
  rewrite (startswith_firstn b JPEG_SIG), (startswith_firstn b PNG_SIG),
    (startswith_firstn b BM).
  repeat (split; [reflexivity|]).
  rewrite header_checks_None. unfold signature_rules. split.
  - intros N.
    pose proof (N (is_jpeg, "jpeg")) as Nj. pose proof (N (is_png, "png")) as Np.
    pose proof (N (is_gif, "gif")) as Ng. pose proof (N (is_bmp, "bmp")) as Nm.
    pose proof (N (is_tiff, "tiff")) as Nt. cbn [fst In] in *.
    assert (G : ~ (firstn 6 b = GIF87a \/ firstn 6 b = GIF89a)).
    { rewrite <- is_gif_firstn, Ng by tauto. discriminate. }
    assert (T : ~ (firstn 2 b = II \/ firstn 2 b = MM)).
    { rewrite <- is_tiff_firstn, Nt by tauto. discriminate. }
    repeat split; try tauto.
    + intros E. apply (startswith_firstn b JPEG_SIG) in E.
      unfold is_jpeg in Nj. rewrite Nj in E by tauto. discriminate.
    + intros E. apply (startswith_firstn b PNG_SIG) in E.
      unfold is_png in Np. rewrite Np in E by tauto. discriminate.
    + intros E. apply (startswith_firstn b BM) in E.
      unfold is_bmp in Nm. rewrite Nm in E by tauto. discriminate.
  - intros (Nj & Np & Ng1 & Ng2 & Nm & Nt1 & Nt2) r I. cbn [In] in I.
    apply not_true_is_false. intros M.
    repeat destruct I as [<-|I]; try destruct I; cbn [fst] in M.
    + now apply (startswith_firstn b JPEG_SIG) in M.
    + now apply (startswith_firstn b PNG_SIG) in M.
    + apply is_gif_firstn in M. tauto.
    + now apply (startswith_firstn b BM) in M.
    + apply is_tiff_firstn in M. tauto.
Qed.

Lemma label_exact_witness :
  fst (what bare_runtime (FileBytes (list_byte_of_string "GIF88a")) None)
  = Returns None.
Proof.
  apply (proj2 (proj2 (proj2 (proj2 (proj2 (proj2 (label_exact bare_runtime
           (FileBytes (list_byte_of_string "GIF88a")) None
           (list_byte_of_string "GIF88a") eq_refl eq_refl))))))).
  repeat split; intros E; vm_compute in E; discriminate E.
Defined.

(* ------------------------------------------------------------------ *)
(** ** What a call can return *)

Lemma read_header_early_None (rt : Runtime) (file : PyFile)
    (h : option bytes) (v : option string) (t : list io_event) :
  read_header rt file h = (Returns (Return v), t) -> v = None.
Proof.
  destruct h as [hdr|]; [discriminate|].
  destruct (opened_path file) as [path|] eqn:Hp.
  - rewrite (read_header_path rt file path Hp), read_header_str.
    destruct (os_open rt path) as [e|[e|c]]; now intros [= <- _].
  - destruct file; try discriminate Hp; discriminate.
Qed.

Lemma pillow_format_Some (rt : Runtime) (data : bytes) (s : string) :
  pillow_format rt data = Some s ->
  exists dec, Image rt = Some dec /\ dec data = DecodeYields (Some s) /\
              s <> "".
Proof.
  unfold pillow_format. destruct (Image rt) as [dec|]; [|discriminate].
  destruct (dec data) as [e|[[|c s']|]] eqn:D; simpl; try discriminate.
  intros [= <-]. exists dec.
  split; [reflexivity | split; [exact D | intros E; discriminate E]].
Qed.

(** X7. Whatever the runtime and the arguments, a call returns [None],
    one of the five labels, or [str.lower] of a non-empty format that the
    decoder reported for some buffer; without Pillow it is [None] or one
    of the five labels. *)
Theorem result_range (rt : Runtime) (file : PyFile) (h : option bytes) :
  exists v t,
    what rt file h = (Returns v, t) /\
    (In v [None; Some "jpeg"; Some "png"; Some "gif"; Some "bmp"; Some "tiff"]
     \/ exists dec data fmt,
          Image rt = Some dec /\ dec data = DecodeYields (Some fmt) /\
          fmt <> "" /\ v = Some (str_lower rt fmt)) /\
    (Image rt = None ->
     In v [None; Some "jpeg"; Some "png"; Some "gif"; Some "bmp"; Some "tiff"]).
Proof.
  destruct (read_header_returns rt file h) as ([v|data] & t & E).
  - rewrite (what_early_return rt file h v t E).
    apply read_header_early_None in E. subst v.
    eexists; eexists; split; [reflexivity|]. simpl; auto.
  - rewrite (what_after_read rt file h data t E).
    eexists; eexists; split; [reflexivity|].
    destruct (pillow_format rt data) as [s|] eqn:P.
    + destruct (pillow_format_Some rt data s P) as (dec & HI & HD & Hne).
      split.
      * right. exists dec, data, s. auto.
      * intros HN. rewrite HN in HI. discriminate.
    + split; [left|intros _]; apply header_checks_labels.
Qed.

Lemma result_range_witness :
  exists v t,
    what bare_runtime (FileBytes (list_byte_of_string "II*.")) None
    = (Returns v, t) /\
    In v [None; Some "jpeg"; Some "png"; Some "gif"; Some "bmp"; Some "tiff"].
Proof.
  destruct (result_range bare_runtime
              (FileBytes (list_byte_of_string "II*.")) None)
    as (v & t & E & _ & L).
  exists v, t. split; [exact E | exact (L eq_refl)].
Defined.

(* ------------------------------------------------------------------ *)
(** ** The module loads with or without Pillow *)

(** X8. The import block leaves [Image] and [BytesIO] both bound or both
    [None]: the decoder is there exactly when both imports succeeded, and
    then it is [Image.open] after [BytesIO].  When either import raises,
    the module still loads and a call that passes a buffer answers with
    the header checks alone. *)
Theorem import_block_all_or_nothing (Stream : Type)
    (pil : import_outcome (Stream -> decode_outcome))
    (io : import_outcome (bytes -> Stream)) :
  (g_Image (import_block pil io) = None <->
   g_BytesIO (import_block pil io) = None) /\
  (forall image bytes_io,
      pil = Imported image -> io = Imported bytes_io ->
      decoder_of (import_block pil io)
      = Some (fun data => image (bytes_io data))) /\
  (decoder_of (import_block pil io) = None <->
   (exists e, pil = ImportFails e) \/ (exists e, io = ImportFails e)) /\
  (forall fs lower_fn file h b,
      (exists e, pil = ImportFails e) \/ (exists e, io = ImportFails e) ->
      passed_buffer file h = Some b ->
      what (runtime_of fs lower_fn (import_block pil io)) file h
      = (Returns (header_checks b), [])).
Proof.
  assert (D : decoder_of (import_block pil io) = None <->
              (exists e, pil = ImportFails e) \/ (exists e, io = ImportFails e)).
  { destruct pil as [e|image], io as [e'|bytes_io]; simpl; split;
      try discriminate; eauto.
    intros [[e E]|[e E]]; discriminate E. }
  split; [|split; [|split]].
  - destruct pil as [e|image], io as [e'|bytes_io]; simpl; split;
      try reflexivity; discriminate.
  - intros image bytes_io -> ->. reflexivity.
  - exact D.
  - intros fs lower_fn file h b F Hb.
    apply what_buffer_without_pillow; [|exact Hb].
    simpl. now apply D.
Qed.

Lemma import_block_all_or_nothing_witness :
  what (runtime_of (fun _ => OpenFails FileNotFoundError) lower
          (import_block (ImportFails (OtherException "ModuleNotFoundError"))
                        (Imported (fun data : bytes => data))))
       (FileBytes (PNG_SIG ++ [x00])) None
  = (Returns (header_checks (PNG_SIG ++ [x00])), []).
Proof.
  apply (proj2 (proj2 (proj2 (import_block_all_or_nothing bytes
           (ImportFails (OtherException "ModuleNotFoundError"))
           (Imported (fun data : bytes => data)))))
           (fun _ => OpenFails FileNotFoundError) lower
           (FileBytes (PNG_SIG ++ [x00])) None (PNG_SIG ++ [x00])).
  - left. exists (OtherException "ModuleNotFoundError"). reflexivity.
  - reflexivity.
Defined.
